(** * PID goal controller of the JetRacer: [scripts/pid_official.py]

    A shallow embedding of the script and the properties its specification
    states about it.

    Numbers.  The script computes on Python floats.  They are read here as
    real numbers ([R], with [PI] for [math.pi]), the arithmetic in which the
    specification states its properties ("for all real a", "error: real");
    this reading leaves rounding out.  Where binary64 arithmetic differs
    from it by more than rounding (a term absorbed by a large one, overflow,
    NaN), the functions concerned are given again on binary64 floats, in
    the module [Binary64], and the properties are settled there.

    Time.  [time.time()] is an input of the program: every function that
    reads the clock takes the reading as an argument, and nothing is assumed
    about successive readings unless a statement says so.

    Effects.  A [PIDController] is mutated in place by [update] and [reset];
    each method takes the object's state and returns the new one.  What the
    pose handler prints and publishes is collected as a list of events. *)

From Equations Require Import Equations.
From Stdlib Require PrimFloat.
From Stdlib Require Import Reals Lra Lia ZArith List String Sorted.
Import ListNotations.
Open Scope R_scope.

(** ** Python values, exceptions and the small effect monad *)

(** The values that the goal list holds: the numbers [0] it is created with,
    or the strings that [main] copies into it from [sys.argv]. *)
Inductive pyval : Type :=
| PyNum (r : R)
| PyStr (s : string).

Inductive exn : Type :=
| IndexError
| TypeError.

Inductive result (A : Type) : Type :=
| Ok (a : A)
| Raise (e : exn).
Arguments Ok {A} a.
Arguments Raise {A} e.

(** [l[i]] for a list and a non-negative index. *)
Definition getitem {A : Type} (l : list A) (i : nat) : result A :=
  match nth_error l i with
  | Some a => Ok a
  | None => Raise IndexError
  end.

(** [l[i] = v] for a list and a non-negative index. *)
Fixpoint setitem {A : Type} (l : list A) (i : nat) (v : A) : result (list A) :=
  match l, i with
  | [], _ => Raise IndexError
  | _ :: tl, O => Ok (v :: tl)
  | hd :: tl, S j =>
      match setitem tl j v with
      | Ok tl' => Ok (hd :: tl')
      | Raise e => Raise e
      end
  end.

(** [a - x] where [x] is a float: a string on the left is a [TypeError]. *)
Definition py_sub (a : pyval) (x : R) : result R :=
  match a with
  | PyNum r => Ok (r - x)
  | PyStr _ => Raise TypeError
  end.

(** [min(a, b)] and [max(a, b)]: the first argument is kept unless the second
    is strictly smaller (resp. larger). *)
Definition py_min (a b : R) : R := if Rlt_dec b a then b else a.
Definition py_max (a b : R) : R := if Rgt_dec b a then b else a.

(** What the program writes to the outside: a line on standard output (its
    text and the numbers printed after it), or a [Float32] message on a
    topic. *)
Inductive event : Type :=
| Print (text : string) (values : list R)
| Publish (topic : string) (data : R).

(** Computations that emit events and may raise: the events emitted so far
    are kept when an exception cuts the computation short. *)
Definition M (A : Type) : Type := (list event * result A)%type.

Definition ret {A : Type} (a : A) : M A := ([], Ok a).

Definition bind {A B : Type} (m : M A) (k : A -> M B) : M B :=
  match m with
  | (evs, Ok a) => let '(evs', r) := k a in (evs ++ evs', r)
  | (evs, Raise e) => (evs, Raise e)
  end.

Definition lift {A : Type} (r : result A) : M A := ([], r).
Definition emit (e : event) : M unit := ([e], Ok tt).

Declare Scope py_scope.
Delimit Scope py_scope with py.
Notation "x <- m ;; k" := (bind m (fun x => k))
  (at level 61, m at next level, right associativity) : py_scope.
Notation "m ;;; k" := (bind m (fun _ => k))
  (at level 61, right associativity) : py_scope.

(** ** Module constants *)

Definition POSE_TOPIC : string := "vrpn_client_node/JaiAliJetRacer/pose".
Definition ERR_EPSILON : R := 0.2.
Definition GOAL : list pyval := [PyNum 0; PyNum 0].
Definition THETA : R := 0.
Definition HEADING_BIAS : R := 0.04.

Definition X_ARG : nat := 1.
Definition Y_ARG : nat := 2.
Definition THETA_ARG : nat := 3.

Definition STEERING_TOPIC : string := "/jetracer/steering".
Definition THROTTLE_TOPIC : string := "/jetracer/throttle".

(** ** class PIDController *)

Module PIDController.

Record t : Type := mk {
  kp : R;
  ki : R;
  kd : R;
  integral : R;
  last_error : R;
  last_time : R
}.

(** [PIDController(kp, ki, kd)], constructed when the clock reads [now]. *)
Definition __init__ (now : R) (kp ki kd : R) : t :=
  {| kp := kp; ki := ki; kd := kd;
     integral := 0;
     last_error := 0;
     last_time := now |}.

(** [self.reset()], called when the clock reads [now]. *)
Definition reset (now : R) (self : t) : t :=
  {| kp := kp self; ki := ki self; kd := kd self;
     integral := 0;
     last_error := 0;
     last_time := now |}.

(** [self.update(error)], called when the clock reads [now]: the value
    returned and the state the object is left in. *)
Definition update (now : R) (error : R) (self : t) : R * t :=
  let current_time := now in
  let dt := current_time - last_time self in
  let de := error - last_error self in
  let integral' := integral self + error * dt in
  let derivative := if Rgt_dec dt 0 then de / dt else 0 in
  let output := kp self * error + ki self * integral' + kd self * derivative in
  (output,
   {| kp := kp self; ki := ki self; kd := kd self;
      integral := integral';
      last_error := error;
      last_time := current_time |}).

(** Successive [update] calls on one object, each given by the clock reading
    it takes and the error it is passed: the state the object is in after
    each call, in order. *)
Fixpoint states_after (calls : list (R * R)) (self : t) : list t :=
  match calls with
  | [] => []
  | (now, error) :: rest =>
      let self' := snd (update now error self) in
      self' :: states_after rest self'
  end.

End PIDController.

(** ** The functions of [math] that the script calls *)

(** [math.hypot(x, y)]. *)
Definition hypot (x y : R) : R := sqrt (x * x + y * y).

(** [math.atan2(y, x)]: the angle of the point [(x, y)], in [(-PI, PI]], and
    [0] at the origin (the value the C library and Python return for
    [atan2(0.0, 0.0)]). *)
Definition atan2 (y x : R) : R :=
  if Rgt_dec x 0 then atan (y / x)
  else if Rlt_dec x 0 then
    (if Rge_dec y 0 then atan (y / x) + PI else atan (y / x) - PI)
  else if Rgt_dec y 0 then PI / 2
  else if Rlt_dec y 0 then - (PI / 2)
  else 0.

(** ** [euler_from_quaternion] *)

Definition euler_from_quaternion (x y z w : R) : R * R * R :=
  let t0 := 2.0 * (w * x + y * z) in
  let t1 := 1.0 - 2.0 * (x * x + y * y) in
  let roll_x := atan2 t0 t1 in
  let t2 := 2.0 * (w * y - z * x) in
  let t2 := if Rgt_dec t2 1.0 then 1.0 else t2 in
  let t2 := if Rlt_dec t2 (-1.0) then -1.0 else t2 in
  let pitch_y := asin t2 in
  let t3 := 2.0 * (w * z + x * y) in
  let t4 := 1.0 - 2.0 * (y * y + z * z) in
  let yaw_z := atan2 t3 t4 in
  (roll_x, pitch_y, yaw_z).

(** ** [JetRacerController.angle_wrap]

    The two [while] loops are functions defined by well-founded recursion.
    Each returns the angle it ends with and the number of times its body
    ran.  The measure of the first loop is the number of whole turns by
    which the angle exceeds [PI], that of the second the number by which it
    falls short of [-PI]. *)

Definition turns_above (angle : R) : nat :=
  Z.to_nat (up ((angle - PI) / (2 * PI))).

Definition turns_below (angle : R) : nat :=
  Z.to_nat (up ((- PI - angle) / (2 * PI))).

(** One more run of a loop body. *)
Definition tick (p : R * nat) : R * nat := (fst p, S (snd p)).

(** [while angle > math.pi: angle -= 2 * math.pi] *)
Equations? while_above (angle : R) : R * nat by wf (turns_above angle) lt :=
  while_above angle with Rgt_dec angle PI := {
    | left _ => tick (while_above (angle - 2 * PI));
    | right _ => (angle, 0%nat) }.
Proof.
  unfold turns_above. pose proof PI_RGT_0 as Hpi.
  replace ((angle - 2 * PI - PI) / (2 * PI))
    with ((angle - PI) / (2 * PI) - 1) by (field; lra).
  set (q := (angle - PI) / (2 * PI)).
  assert (Hq : 0 < q) by (apply Rdiv_lt_0_compat; lra).
  destruct (archimed q) as [Hgt Hle].
  rewrite <- (tech_up (q - 1) (up q - 1)) by (rewrite minus_IZR; lra).
  assert (Hup : (0 < up q)%Z) by (apply lt_IZR; lra).
  lia.
Qed.

(** [while angle < -math.pi: angle += 2 * math.pi] *)
Equations? while_below (angle : R) : R * nat by wf (turns_below angle) lt :=
  while_below angle with Rlt_dec angle (- PI) := {
    | left _ => tick (while_below (angle + 2 * PI));
    | right _ => (angle, 0%nat) }.
Proof.
  unfold turns_below. pose proof PI_RGT_0 as Hpi.
  replace ((- PI - (angle + 2 * PI)) / (2 * PI))
    with ((- PI - angle) / (2 * PI) - 1) by (field; lra).
  set (q := (- PI - angle) / (2 * PI)).
  assert (Hq : 0 < q) by (apply Rdiv_lt_0_compat; lra).
  destruct (archimed q) as [Hgt Hle].
  rewrite <- (tech_up (q - 1) (up q - 1)) by (rewrite minus_IZR; lra).
  assert (Hup : (0 < up q)%Z) by (apply lt_IZR; lra).
  lia.
Qed.

(** The method: the angle returned, and the number of loop iterations run. *)
Definition angle_wrap_run (angle : R) : R * nat :=
  let '(angle, n1) := while_above angle in
  let '(angle, n2) := while_below angle in
  (angle, (n1 + n2)%nat).

Definition angle_wrap (angle : R) : R := fst (angle_wrap_run angle).
Definition angle_wrap_iterations (angle : R) : nat := snd (angle_wrap_run angle).

(** ** The pose message ([geometry_msgs/PoseStamped]; the header is not read) *)

Record Point : Type := { px : R; py : R; pz : R }.
Record Quaternion : Type := { qx : R; qy : R; qz : R; qw : R }.
Record Pose : Type := { position : Point; orientation : Quaternion }.
Record PoseStamped : Type := { pose : Pose }.

(** ** class JetRacerController *)

Module JetRacerController.

(** The object's fields.  The node, the two publishers (on
    [STEERING_TOPIC] and [THROTTLE_TOPIC]) and the subscription to
    [POSE_TOPIC] exist as soon as the object does.  [goal] is the module's
    [GOAL] list itself; nothing writes to that list once the object is
    built, so the field holds its contents. *)
Record t : Type := mk {
  goal : list pyval;
  heading_pid : PIDController.t;
  distance_pid : PIDController.t
}.

(** [JetRacerController()], with the list [GOAL] as it is at that moment
    and the clock readings of the two [PIDController] constructors. *)
Definition __init__ (t_heading t_distance : R) (GOAL : list pyval) : t :=
  {| goal := GOAL;
     heading_pid := PIDController.__init__ t_heading 0.3 0.0 0.02;
     distance_pid := PIDController.__init__ t_distance 0.25 0.0 0.4 |}.

(** A controller whose goal holds the numbers [gx] and [gy], in any state
    of its two [PIDController]s. *)
Definition with_goal (gx gy : R) (heading distance : PIDController.t) : t :=
  {| goal := [PyNum gx; PyNum gy];
     heading_pid := heading;
     distance_pid := distance |}.

(** Lines 71 to 75 of [pose_callback]: the distance to the goal and the
    heading error, from the position [(x, y)] and the yaw of the pose. *)
Definition goal_errors (self : t) (x y yaw : R) : result (R * R) :=
  match getitem (goal self) 0 with
  | Raise e => Raise e
  | Ok g0 =>
    match py_sub g0 x with
    | Raise e => Raise e
    | Ok dx =>
      match getitem (goal self) 1 with
      | Raise e => Raise e
      | Ok g1 =>
        match py_sub g1 y with
        | Raise e => Raise e
        | Ok dy =>
          let goal_dist := hypot dx dy in
          let goal_heading := atan2 dy dx in
          let heading_error := angle_wrap (goal_heading - yaw) in
          Ok (goal_dist, heading_error)
        end
      end
    end
  end.

(** [self.pose_callback(msg)]; [t_heading] and [t_distance] are the clock
    readings of the two [update] calls.  Returns what was printed and
    published, and the state the controller is left in. *)
Definition pose_callback (t_heading t_distance : R) (msg : PoseStamped)
    (self : t) : M t :=
  (let x := px (position (pose msg)) in
   let y := py (position (pose msg)) in
   emit (Print "Postion: " [x; y]) ;;;
   let q := orientation (pose msg) in
   let '(_, _, yaw) := euler_from_quaternion (qx q) (qy q) (qz q) (qw q) in
   errs <- lift (goal_errors self x y yaw) ;;
   let '(goal_dist, heading_error) := errs in
   (* Compute control *)
   let '(steering, heading_pid') :=
     PIDController.update t_heading heading_error (heading_pid self) in
   let '(throttle, distance_pid') :=
     PIDController.update t_distance goal_dist (distance_pid self) in
   (* Limit values *)
   let steering := py_max (py_min (steering + HEADING_BIAS) 1.0) (-1.0) in
   let throttle :=
     if Rgt_dec goal_dist ERR_EPSILON
     then py_max (py_min throttle 0.2) 0.0
     else 0.0 in
   emit (Publish STEERING_TOPIC steering) ;;;
   emit (Publish THROTTLE_TOPIC throttle) ;;;
   ret {| goal := goal self;
          heading_pid := heading_pid';
          distance_pid := distance_pid' |})%py.

End JetRacerController.

(** ** [main] and the script's entry point *)

(** How a call of [main] ends: it returns, it raises, or it is inside
    [rospy.spin()], where the node's callbacks run until shutdown. *)
Inductive outcome : Type :=
| Returned
| Raised (e : exn)
| Spinning.

(** The process as [main] leaves it: the lines printed, the module's [GOAL]
    list, and the controller (with its subscription to [POSE_TOPIC]) once
    one has been constructed. *)
Record process : Type := {
  stdout : list string;
  GOAL_list : list pyval;
  controller : option JetRacerController.t;
  ending : outcome
}.

Definition USAGE : string :=
  "USAGE: python3 pid_official.py [x_coordinate] [y_coordinate]".

(** [main(argc, argv)] in a fresh process; [t_heading] and [t_distance] are
    the clock readings of the controller's two [PIDController]
    constructors. *)
Definition main (t_heading t_distance : R) (argc : Z) (argv : list string)
    : process :=
  if negb (argc =? 2)%Z then
    {| stdout := [USAGE]; GOAL_list := GOAL; controller := None;
       ending := Returned |}
  else
    match getitem argv X_ARG with
    | Raise e =>
        {| stdout := []; GOAL_list := GOAL; controller := None;
           ending := Raised e |}
    | Ok x_arg =>
      match setitem GOAL 0 (PyStr x_arg) with
      | Raise e =>
          {| stdout := []; GOAL_list := GOAL; controller := None;
             ending := Raised e |}
      | Ok GOAL1 =>
        match getitem argv Y_ARG with
        | Raise e =>
            {| stdout := []; GOAL_list := GOAL1; controller := None;
               ending := Raised e |}
        | Ok y_arg =>
          match setitem GOAL1 1 (PyStr y_arg) with
          | Raise e =>
              {| stdout := []; GOAL_list := GOAL1; controller := None;
                 ending := Raised e |}
          | Ok GOAL2 =>
              {| stdout := []; GOAL_list := GOAL2;
                 controller :=
                   Some (JetRacerController.__init__ t_heading t_distance GOAL2);
                 ending := Spinning |}
          end
        end
      end
    end.

(** [main(len(sys.argv), sys.argv)], the call under [if __name__ ==
    '__main__']; [sys.argv] is the script's name followed by the arguments
    of the command line. *)
Definition script (t_heading t_distance : R) (sys_argv : list string)
    : process :=
  main t_heading t_distance (Z.of_nat (List.length sys_argv)) sys_argv.

(** ** Runs of a [PIDController] *)

(** The state of the object after the successive calls (the state it starts
    in when there is no call). *)
Definition state_after (calls : list (R * R)) (self : PIDController.t)
    : PIDController.t :=
  last (PIDController.states_after calls self) self.

(** The values that the successive calls return, in order. *)
Fixpoint outputs_of (calls : list (R * R)) (self : PIDController.t) : list R :=
  match calls with
  | [] => []
  | (now, error) :: rest =>
      fst (PIDController.update now error self)
      :: outputs_of rest (snd (PIDController.update now error self))
  end.

(** ** The arithmetic of the script on binary64 floats

    [PIDController], the limiting of the two commands and [angle_wrap] use
    only the IEEE 754 operations [+], [-], [*], [/] and comparisons, which
    Python computes on binary64 floats and which the primitive floats
    compute bit for bit.  This module gives these functions on floats, for
    the properties that depend on more than rounding: absorption, overflow
    and NaN.  The integers [0] and [2] of the source become [0.0] and [2.0]
    as soon as they meet a float, so they are floats here. *)

Module Binary64.

Import PrimFloat.
Local Open Scope float_scope.
#[local] Set Warnings "-inexact-float".

(** [math.pi] *)
Definition math_pi : float := 0x1.921fb54442d18p+1.

Definition ERR_EPSILON : float := 0.2.
Definition HEADING_BIAS : float := 0.04.

(** [min(a, b)] and [max(a, b)]: [b if b < a else a] and
    [b if b > a else a]; a comparison with NaN is false. *)
Definition py_min (a b : float) : float := if b <? a then b else a.
Definition py_max (a b : float) : float := if a <? b then b else a.

(** class PIDController *)
Record t : Type := mk {
  kp : float;
  ki : float;
  kd : float;
  integral : float;
  last_error : float;
  last_time : float
}.

Definition __init__ (now : float) (kp ki kd : float) : t :=
  {| kp := kp; ki := ki; kd := kd;
     integral := 0;
     last_error := 0;
     last_time := now |}.

Definition update (now : float) (error : float) (self : t) : float * t :=
  let current_time := now in
  let dt := current_time - last_time self in
  let de := error - last_error self in
  let integral' := integral self + error * dt in
  let derivative := if 0 <? dt then de / dt else 0 in
  let output := kp self * error + ki self * integral' + kd self * derivative in
  (output,
   {| kp := kp self; ki := ki self; kd := kd self;
      integral := integral';
      last_error := error;
      last_time := current_time |}).

(** Lines 78 to 83 of [pose_callback]: from the two errors, the two
    controllers and the clock readings of their [update] calls to the
    steering and the throttle that lines 85 and 86 publish. *)
Definition commands (t_heading t_distance : float)
    (heading_error goal_dist : float) (heading_pid distance_pid : t)
    : float * float :=
  (* Compute control *)
  let steering := fst (update t_heading heading_error heading_pid) in
  let throttle := fst (update t_distance goal_dist distance_pid) in
  (* Limit values *)
  let steering := py_max (py_min (steering + HEADING_BIAS) 1.0) (-1.0) in
  let throttle :=
    if ERR_EPSILON <? goal_dist
    then py_max (py_min throttle 0.2) 0.0
    else 0.0 in
  (steering, throttle).

(** [while angle > math.pi: angle -= 2 * math.pi], run for at most [fuel]
    tests of its condition; [None] when that is not enough for the loop to
    exit. *)
Fixpoint while_above (fuel : nat) (angle : float) : option float :=
  match fuel with
  | O => None
  | S fuel' =>
      if math_pi <? angle
      then while_above fuel' (angle - 2 * math_pi)
      else Some angle
  end.

(** [while angle < -math.pi: angle += 2 * math.pi] *)
Fixpoint while_below (fuel : nat) (angle : float) : option float :=
  match fuel with
  | O => None
  | S fuel' =>
      if angle <? - math_pi
      then while_below fuel' (angle + 2 * math_pi)
      else Some angle
  end.

(** [angle_wrap(angle)], each loop run for at most [fuel] tests. *)
Definition angle_wrap (fuel : nat) (angle : float) : option float :=
  match while_above fuel angle with
  | None => None
  | Some angle' => while_below fuel angle'
  end.

End Binary64.

(** * Properties *)

(** ** The loops of [angle_wrap] *)

Lemma while_above_spec (a : R) :
  (a <= PI /\ while_above a = (a, 0%nat)) \/
  (a > PI /\ (0 < snd (while_above a))%nat /\
   - PI < fst (while_above a) <= PI /\
   fst (while_above a) = a - INR (snd (while_above a)) * (2 * PI)).
Proof.
  funelim (while_above a).
  - right. split; [assumption |].
    destruct H as [[Hle Hrun] | [Hgt [Hn [Hrange Hval]]]].
    + rewrite Hrun. unfold tick. simpl fst. simpl snd.
      split; [lia |]. split; [lra |]. simpl INR. lra.
    + unfold tick. simpl fst. simpl snd. rewrite S_INR.
      split; [lia |]. split; [assumption |]. rewrite Hval. ring.
  - left. split; [lra | reflexivity].
Qed.

Lemma while_below_spec (a : R) :
  (a >= - PI /\ while_below a = (a, 0%nat)) \/
  (a < - PI /\ (0 < snd (while_below a))%nat /\
   - PI <= fst (while_below a) < PI /\
   fst (while_below a) = a + INR (snd (while_below a)) * (2 * PI)).
Proof.
  funelim (while_below a).
  - right. split; [assumption |].
    destruct H as [[Hge Hrun] | [Hlt [Hn [Hrange Hval]]]].
    + rewrite Hrun. unfold tick. simpl fst. simpl snd.
      split; [lia |]. split; [lra |]. simpl INR. lra.
    + unfold tick. simpl fst. simpl snd. rewrite S_INR.
      split; [lia |]. split; [assumption |]. rewrite Hval. ring.
  - left. split; [lra | reflexivity].
Qed.

(** The three ways a call of [angle_wrap] goes: no loop runs, only the first
    one does, or only the second one does. *)
Lemma angle_wrap_run_cases (a : R) :
  (- PI <= a <= PI /\ angle_wrap_run a = (a, 0%nat)) \/
  (a > PI /\ exists n : nat, (0 < n)%nat /\
     angle_wrap_run a = (a - INR n * (2 * PI), n) /\
     - PI < a - INR n * (2 * PI) <= PI) \/
  (a < - PI /\ exists n : nat, (0 < n)%nat /\
     angle_wrap_run a = (a + INR n * (2 * PI), n) /\
     - PI <= a + INR n * (2 * PI) < PI).
Proof.
  pose proof PI_RGT_0 as Hpi. unfold angle_wrap_run.
  destruct (while_above_spec a) as [[Hle Hrun] | [Hgt [Hn [Hrange Hval]]]].
  - rewrite Hrun.
    destruct (while_below_spec a) as [[Hge Hrun'] | [Hlt [Hn [Hrange Hval]]]].
    + left. rewrite Hrun'. split; [lra | reflexivity].
    + right; right. split; [assumption |].
      destruct (while_below a) as [r n]. simpl in *.
      exists n. subst r. repeat split; try assumption; lra.
  - right; left. split; [assumption |].
    destruct (while_above a) as [r n]. simpl in *.
    destruct (while_below_spec r) as [[Hge Hrun'] | [Hlt _]]; [| lra].
    rewrite Hrun'. exists n. subst r.
    rewrite Nat.add_0_r. repeat split; try assumption; lra.
Qed.

Lemma angle_wrap_fixed (a : R) : - PI <= a <= PI -> angle_wrap a = a.
Proof.
  intros Ha. unfold angle_wrap.
  destruct (angle_wrap_run_cases a) as [[_ Hrun] | [[Hgt _] | [Hlt _]]];
    [rewrite Hrun; reflexivity | lra | lra].
Qed.

(** ** [angle_wrap] *)



(** Over the reals, where no subtraction is absorbed, the number of loop
    iterations that [angle_wrap] runs is less than [|angle| / (2 PI) + 1/2]. *)
Lemma angle_wrap_terminates_bounded (a : R) :
  exists (r : R) (n : nat),
    angle_wrap_run a = (r, n) /\
    angle_wrap_iterations a = n /\
    INR n < Rabs a / (2 * PI) + 1 / 2.
Proof.
  pose proof PI_RGT_0 as Hpi. pose proof (Rabs_pos a) as Habs.
  assert (Hbound : forall n : nat,
             INR n * (2 * PI) < Rabs a + PI ->
             INR n < Rabs a / (2 * PI) + 1 / 2).
  { intros n Hn.
    replace (Rabs a / (2 * PI) + 1 / 2) with ((Rabs a + PI) / (2 * PI))
      by (field; lra).
    apply (Rmult_lt_reg_r (2 * PI)); [lra |].
    unfold Rdiv. rewrite Rmult_assoc, Rinv_l by lra. lra. }
  unfold angle_wrap_iterations.
  destruct (angle_wrap_run_cases a)
    as [[Hin Hrun] | [[Hgt [n [Hn [Hrun Hrange]]]] | [Hlt [n [Hn [Hrun Hrange]]]]]];
    rewrite Hrun; eexists; eexists; (split; [reflexivity |]);
    (split; [reflexivity |]); apply Hbound.
  - simpl INR. lra.
  - rewrite (Rabs_right a) by lra. lra.
  - rewrite (Rabs_left a) by lra. lra.
Qed.

(** ** [PIDController] *)

Section PIDControllerFacts.

Import PIDController.

(** C6: [update] adds [error * dt] to the integral, takes
    [(error - last_error) / dt] as derivative when [dt > 0] and [0]
    otherwise, returns [kp * error + ki * integral + kd * derivative] with
    the new integral, and leaves [error] and the clock reading in
    [last_error] and [last_time]; the gains are untouched. *)
Theorem update_computes (self : t) (now error : R) :
  let dt := now - last_time self in
  let output := fst (update now error self) in
  let self' := snd (update now error self) in
  exists derivative : R,
    (dt > 0 -> derivative = (error - last_error self) / dt) /\
    (~ dt > 0 -> derivative = 0) /\
    integral self' = integral self + error * dt /\
    output = kp self * error + ki self * integral self' + kd self * derivative /\
    last_error self' = error /\
    last_time self' = now /\
    (kp self', ki self', kd self') = (kp self, ki self, kd self).
Proof.
  intros dt output self'. subst output self'. unfold update. simpl.
  fold dt.
  exists (if Rgt_dec dt 0 then (error - last_error self) / dt else 0).
  repeat split.
  - intros Hdt. destruct (Rgt_dec dt 0); [reflexivity | contradiction].
  - intros Hdt. destruct (Rgt_dec dt 0); [contradiction | reflexivity].
Qed.

(** C7: [reset()] followed by [update(e)] returns what [update(e)] returns
    on a controller constructed with the same gains at the time of the
    reset, and leaves the same state. *)
Theorem reset_then_update_as_fresh (self : t) (t_reset now e : R) :
  update now e (reset t_reset self)
  = update now e (__init__ t_reset (kp self) (ki self) (kd self)).
Proof. reflexivity. Qed.

Lemma update_last_time (self : t) (now error : R) :
  last_time (snd (update now error self)) = now.
Proof. reflexivity. Qed.

Lemma last_times_are_readings (calls : list (R * R)) (self : t) :
  map last_time (states_after calls self) = map fst calls.
Proof.
  revert self. induction calls as [| [now error] rest IH]; intros self.
  - reflexivity.
  - simpl. rewrite IH. reflexivity.
Qed.

(** C9, the claim as stated fails: an [update] at clock reading 7 on a
    controller whose [last_time] is 10 leaves [last_time] at 7. *)
Lemma last_time_decreases_with_clock :
  last_time (snd (update 7 1 (__init__ 10 0.3 0.0 0.02))) = 7 /\
  ~ (last_time (__init__ 10 0.3 0.0 0.02)
     <= last_time (snd (update 7 1 (__init__ 10 0.3 0.0 0.02)))).
Proof. simpl. split; [reflexivity | lra]. Qed.

(** C9, amended: across successive [update] calls whose clock readings are
    non-decreasing, starting at or after the stored [last_time], the
    stored [last_time] is non-decreasing. *)
Theorem last_time_monotone_with_clock (calls : list (R * R)) (self : t) :
  Sorted Rle (last_time self :: map fst calls) ->
  Sorted Rle (last_time self :: map last_time (states_after calls self)).
Proof. rewrite last_times_are_readings. trivial. Qed.

(** Three calls at clock readings 1, 1 and 3 on a controller built at 0. *)
Lemma last_time_monotone_with_clock_witness :
  Sorted Rle (last_time (__init__ 0 0.3 0.0 0.02)
              :: map last_time
                   (states_after [(1, 0.5); (1, 0.25); (3, 0)]
                      (__init__ 0 0.3 0.0 0.02))).
Proof.
  apply (last_time_monotone_with_clock [(1, 0.5); (1, 0.25); (3, 0)]).
  simpl. repeat constructor; lra.
Defined.

(** C10: when the elapsed time [dt] is zero or negative, [update] still
    adds [error * dt] to the integral (which lowers it when [dt < 0] and
    [error > 0]) and still overwrites [last_error] and [last_time]; only
    the derivative term is left out of the output. *)
Theorem update_nonpositive_dt (self : t) (now error : R) :
  now - last_time self <= 0 ->
  let dt := now - last_time self in
  let self' := snd (update now error self) in
  integral self' = integral self + error * dt /\
  (dt < 0 -> error > 0 -> integral self' < integral self) /\
  last_error self' = error /\
  last_time self' = now /\
  fst (update now error self) = kp self * error + ki self * integral self'.
Proof.
  intros Hdt dt self'. subst self'. unfold update. simpl. fold dt.
  repeat split.
  - intros Hneg Hpos. nra.
  - destruct (Rgt_dec dt 0) as [Hgt | _]; [unfold dt in Hgt; lra | ring].
Qed.

(** A call at clock reading 3 on a controller built at 5: [dt = -2]. *)
Lemma update_nonpositive_dt_witness :
  let self := __init__ 5 1 1 1 in
  let self' := snd (update 3 2 self) in
  integral self' = integral self + 2 * (3 - last_time self) /\
  (3 - last_time self < 0 -> 2 > 0 -> integral self' < integral self) /\
  last_error self' = 2 /\
  last_time self' = 3 /\
  fst (update 3 2 self) = kp self * 2 + ki self * integral self'.
Proof.
  apply (update_nonpositive_dt (__init__ 5 1 1 1) 3 2).
  simpl. lra.
Defined.

End PIDControllerFacts.

(** ** The pose handler *)

Lemma hypot_origin : hypot 0 0 = 0.
Proof. unfold hypot. replace (0 * 0 + 0 * 0) with 0 by ring. apply sqrt_0. Qed.

Lemma atan2_origin : atan2 0 0 = 0.
Proof.
  unfold atan2.
  destruct (Rgt_dec 0 0); [lra |]. destruct (Rlt_dec 0 0); [lra |].
  reflexivity.
Qed.

(** The yaw of the quaternion [(0, 0, 1, 0)], a half turn about the vertical
    axis, is [PI]. *)
Lemma yaw_half_turn : snd (euler_from_quaternion 0 0 1 0) = PI.
Proof.
  unfold euler_from_quaternion. simpl snd. unfold atan2.
  destruct (Rgt_dec _ 0) as [Hgt | _]; [lra |].
  destruct (Rlt_dec _ 0) as [_ | Hn]; [| lra].
  destruct (Rge_dec _ 0) as [_ | Hn]; [| lra].
  replace (2.0 * (0 * 1 + 0 * 0) / (1.0 - 2.0 * (0 * 0 + 1 * 1))) with 0
    by (field; lra).
  rewrite atan_0. ring.
Qed.

Section PoseHandlerFacts.

Import JetRacerController.

Variables (gx gy : R) (heading distance : PIDController.t).

Local Abbreviation self := (with_goal gx gy heading distance).

Lemma goal_errors_numeric (x y yaw : R) :
  goal_errors self x y yaw
  = Ok (hypot (gx - x) (gy - y),
        angle_wrap (atan2 (gy - y) (gx - x) - yaw)).
Proof. reflexivity. Qed.

(** What the handler does on a numeric goal, step by step. *)
Lemma pose_callback_numeric (t_heading t_distance : R) (msg : PoseStamped) :
  let x := px (position (pose msg)) in
  let y := py (position (pose msg)) in
  let q := orientation (pose msg) in
  let yaw := snd (euler_from_quaternion (qx q) (qy q) (qz q) (qw q)) in
  let goal_dist := hypot (gx - x) (gy - y) in
  let heading_error := angle_wrap (atan2 (gy - y) (gx - x) - yaw) in
  let raw_steering := fst (PIDController.update t_heading heading_error heading) in
  let raw_throttle := fst (PIDController.update t_distance goal_dist distance) in
  pose_callback t_heading t_distance msg self
  = ([Print "Postion: " [x; y];
      Publish STEERING_TOPIC (py_max (py_min (raw_steering + HEADING_BIAS) 1.0) (-1.0));
      Publish THROTTLE_TOPIC
        (if Rgt_dec goal_dist ERR_EPSILON
         then py_max (py_min raw_throttle 0.2) 0.0 else 0.0)],
     Ok {| goal := goal self;
           heading_pid := snd (PIDController.update t_heading heading_error heading);
           distance_pid := snd (PIDController.update t_distance goal_dist distance) |}).
Proof.
  intros x y q yaw goal_dist heading_error raw_steering raw_throttle.
  unfold pose_callback. fold x y q.
  subst yaw. destruct (euler_from_quaternion (qx q) (qy q) (qz q) (qw q))
    as [[roll_x pitch_y] yaw_z].
  reflexivity.
Qed.

(** C3, amended: when the position of the pose equals the goal, the distance
    error is 0, the goal heading is [atan2(0, 0) = 0], and the heading error
    is [angle_wrap (0 - yaw)]; for a yaw in [[- PI, PI]] that is [- yaw], so
    it is 0 only for yaw 0. *)
Theorem heading_error_at_goal (yaw : R) :
  goal_errors self gx gy yaw = Ok (0, angle_wrap (0 - yaw)) /\
  (- PI <= yaw <= PI -> angle_wrap (0 - yaw) = - yaw) /\
  (- PI <= yaw <= PI -> (angle_wrap (0 - yaw) = 0 <-> yaw = 0)).
Proof.
  assert (Hfix : - PI <= yaw <= PI -> angle_wrap (0 - yaw) = - yaw).
  { intros Hyaw. rewrite angle_wrap_fixed by lra. ring. }
  split; [| split].
  - rewrite goal_errors_numeric.
    replace (gx - gx) with 0 by ring. replace (gy - gy) with 0 by ring.
    rewrite hypot_origin, atan2_origin. reflexivity.
  - exact Hfix.
  - intros Hyaw. rewrite (Hfix Hyaw). lra.
Qed.

(** C4: whenever the distance to the goal is at most [ERR_EPSILON], the
    throttle published is exactly 0, whatever the state of the distance
    controller and the clock are. *)
Theorem deadband_zero_throttle (t_heading t_distance : R) (msg : PoseStamped) :
  hypot (gx - px (position (pose msg))) (gy - py (position (pose msg)))
    <= ERR_EPSILON ->
  exists (steering : R) (self' : t),
    pose_callback t_heading t_distance msg self
    = ([Print "Postion: " [px (position (pose msg)); py (position (pose msg))];
        Publish STEERING_TOPIC steering;
        Publish THROTTLE_TOPIC 0],
       Ok self').
Proof.
  intros Hnear. rewrite pose_callback_numeric.
  destruct (Rgt_dec _ ERR_EPSILON) as [Hfar | _]; [lra |].
  eexists; eexists. repeat f_equal. lra.
Qed.

End PoseHandlerFacts.

(** C3, the claim as stated fails: with the goal at the origin, a pose at
    the origin that faces backwards (yaw [PI]) has heading error [- PI]. *)
Lemma heading_error_at_goal_facing_back :
  snd (euler_from_quaternion 0 0 1 0) = PI /\
  JetRacerController.goal_errors (JetRacerController.__init__ 0 0 GOAL) 0 0 PI
  = Ok (0, - PI) /\
  - PI <> 0.
Proof.
  pose proof PI_RGT_0 as Hpi.
  split; [exact yaw_half_turn |]. split; [| lra].
  unfold JetRacerController.goal_errors, JetRacerController.__init__, GOAL.
  simpl. replace (0 - 0) with 0 by ring.
  rewrite hypot_origin, atan2_origin, angle_wrap_fixed by lra.
  repeat f_equal. ring.
Qed.

(** A pose 0.1 away from the goal [(0, 0)], handled one second after the
    controller was built: the distance controller returns 0.065, which
    without the dead band would be the throttle; the throttle published
    is 0. *)
Lemma deadband_zero_throttle_witness :
  fst (PIDController.update 1 (hypot (0 - 0.1) (0 - 0))
         (PIDController.__init__ 0 0.25 0.0 0.4)) = 0.065 /\
  exists (steering : R) (self' : JetRacerController.t),
    JetRacerController.pose_callback 1 1
      {| pose := {| position := {| px := 0.1; py := 0; pz := 0 |};
                    orientation := {| qx := 0; qy := 0; qz := 0; qw := 1 |} |} |}
      (JetRacerController.with_goal 0 0
         (PIDController.__init__ 0 0.3 0.0 0.02)
         (PIDController.__init__ 0 0.25 0.0 0.4))
    = ([Print "Postion: " [0.1; 0];
        Publish STEERING_TOPIC steering;
        Publish THROTTLE_TOPIC 0],
       Ok self').
Proof.
  assert (Hdist : hypot (0 - 0.1) (0 - 0) = 0.1).
  { unfold hypot.
    replace ((0 - 0.1) * (0 - 0.1) + (0 - 0) * (0 - 0)) with (0.1 * 0.1) by lra.
    apply sqrt_square. lra. }
  split.
  - rewrite Hdist. unfold PIDController.update. simpl.
    destruct (Rgt_dec (1 - 0) 0) as [_ | Hn]; [| lra].
    unfold Rdiv. replace (1 - 0) with 1 by ring. rewrite Rinv_1. lra.
  - apply (deadband_zero_throttle 0 0
             (PIDController.__init__ 0 0.3 0.0 0.02)
             (PIDController.__init__ 0 0.25 0.0 0.4) 1 1
             {| pose := {| position := {| px := 0.1; py := 0; pz := 0 |};
                           orientation := {| qx := 0; qy := 0; qz := 0; qw := 1 |} |} |}).
    simpl. rewrite Hdist. unfold ERR_EPSILON. lra.
Defined.

(** ** [main] *)

(** Whatever the command line is, the script never constructs the
    controller: [main] compares [len(sys.argv)], which counts the script's
    name, with 2, and then reads [argv[2]]. *)
Lemma script_never_spins (t_heading t_distance : R) (sys_argv : list string) :
  controller (script t_heading t_distance sys_argv) = None /\
  ending (script t_heading t_distance sys_argv) <> Spinning.
Proof.
  unfold script, main.
  destruct sys_argv as [| name [| x_arg [| y_arg rest]]];
    try (simpl; split; [reflexivity | discriminate]).
  destruct (Z.eqb_spec (Z.of_nat (List.length (name :: x_arg :: y_arg :: rest))) 2)
    as [Heq | Hne].
  - simpl List.length in Heq. lia.
  - simpl. split; [reflexivity | discriminate].
Qed.

(** With both coordinates on the command line the script prints the usage
    line and returns. *)
Lemma script_two_coordinates_usage (t_heading t_distance : R) (name x_arg y_arg : string) :
  script t_heading t_distance [name; x_arg; y_arg]
  = {| stdout := [USAGE]; GOAL_list := GOAL; controller := None;
       ending := Returned |}.
Proof. reflexivity. Qed.

(** With no coordinate on the command line the script prints the usage line
    and returns. *)
Lemma script_no_coordinate_usage (t_heading t_distance : R) (name : string) :
  script t_heading t_distance [name]
  = {| stdout := [USAGE]; GOAL_list := GOAL; controller := None;
       ending := Returned |}.
Proof. reflexivity. Qed.

(** C1, the code at the failing input: started with one coordinate only, the
    script prints nothing, stores the coordinate in [GOAL[0]] and stops on
    the [IndexError] of [argv[Y_ARG]]; no usage line is printed. *)
Theorem script_one_coordinate_index_error (t_heading t_distance : R) :
  script t_heading t_distance ["pid_official.py"%string; "1.0"%string]
  = {| stdout := [];
       GOAL_list := [PyStr "1.0"; PyNum 0];
       controller := None;
       ending := Raised IndexError |}.
Proof. reflexivity. Qed.

(** A controller whose goal holds command-line strings, as [main] would
    build it, stops on a [TypeError] at its first pose, after the print. *)
Lemma pose_callback_string_goal (t_heading t_distance : R) (msg : PoseStamped)
    (x_arg y_arg : string) (heading distance : PIDController.t) :
  JetRacerController.pose_callback t_heading t_distance msg
    {| JetRacerController.goal := [PyStr x_arg; PyStr y_arg];
       JetRacerController.heading_pid := heading;
       JetRacerController.distance_pid := distance |}
  = ([Print "Postion: " [px (position (pose msg)); py (position (pose msg))]],
     Raise TypeError).
Proof.
  unfold JetRacerController.pose_callback.
  destruct (euler_from_quaternion _ _ _ _) as [[roll_x pitch_y] yaw_z].
  reflexivity.
Qed.

(** ** More on [angle_wrap] *)

Lemma angle_wrap_in_range (a : R) : - PI <= angle_wrap a <= PI.
Proof.
  unfold angle_wrap.
  destruct (angle_wrap_run_cases a)
    as [[Hin Hrun] | [[Hgt [n [Hn [Hrun Hrange]]]] | [Hlt [n [Hn [Hrun Hrange]]]]]];
    rewrite Hrun; simpl fst; lra.
Qed.

(** Two whole numbers of turns that bring angles less than a turn apart
    are the same number. *)
Lemma turns_unique (n m : nat) (d : R) :
  - (2 * PI) < d + (INR n - INR m) * (2 * PI) < 2 * PI ->
  d = 0 -> n = m.
Proof.
  intros Hd Hzero. subst d. pose proof PI_RGT_0 as Hpi.
  assert (Hlo : -1 < INR n - INR m) by nra.
  assert (Hhi : INR n - INR m < 1) by nra.
  rewrite !INR_IZR_INZ, <- minus_IZR in Hlo, Hhi.
  apply lt_IZR in Hlo. apply lt_IZR in Hhi. lia.
Qed.

(** X1: wrapping an angle that is already wrapped changes nothing. *)
Theorem angle_wrap_idempotent (a : R) :
  angle_wrap (angle_wrap a) = angle_wrap a.
Proof. apply angle_wrap_fixed, angle_wrap_in_range. Qed.

(** X2: [angle_wrap] is odd: the two loops mirror each other, both with a
    strict comparison, so wrapping the opposite angle gives the opposite
    result, also at the ends [PI] and [- PI]. *)
Theorem angle_wrap_odd (a : R) : angle_wrap (- a) = - angle_wrap a.
Proof.
  pose proof PI_RGT_0 as Hpi. unfold angle_wrap.
  destruct (angle_wrap_run_cases a)
    as [[Hin Hrun] | [[Hgt [n [Hn [Hrun Hrange]]]] | [Hlt [n [Hn [Hrun Hrange]]]]]];
    destruct (angle_wrap_run_cases (- a))
    as [[Hin' Hrun'] | [[Hgt' [m [Hm [Hrun' Hrange']]]] | [Hlt' [m [Hm [Hrun' Hrange']]]]]];
    try lra; rewrite Hrun, Hrun'; simpl fst.
  - reflexivity.
  - assert (Hnm : n = m) by (apply (turns_unique n m 0); [lra | reflexivity]).
    subst m. ring.
  - assert (Hnm : n = m) by (apply (turns_unique n m 0); [lra | reflexivity]).
    subst m. ring.
Qed.


(** ** [atan2] and [euler_from_quaternion] *)



(** The angle of the point [(cos theta, sin theta)] is [theta]. *)
Lemma atan2_sin_cos (theta : R) :
  - PI < theta <= PI -> atan2 (sin theta) (cos theta) = theta.
Proof.
  intros Hth. pose proof PI_RGT_0 as Hpi. unfold atan2.
  destruct (Rgt_dec (cos theta) 0) as [Hc | Hc].
  - assert (Hin : - (PI / 2) < theta < PI / 2).
    { split.
      - destruct (Rlt_dec (- (PI / 2)) theta) as [|Hn]; [assumption |].
        pose proof (cos_le_0 (- theta)) as Hle. rewrite cos_neg in Hle. lra.
      - destruct (Rlt_dec theta (PI / 2)) as [|Hn]; [assumption |].
        pose proof (cos_le_0 theta). lra. }
    change (sin theta / cos theta) with (tan theta).
    apply atan_tan; assumption.
  - destruct (Rlt_dec (cos theta) 0) as [Hc' | Hc'].
    + destruct (Rge_dec (sin theta) 0) as [Hs | Hs].
      * assert (Hin : PI / 2 < theta).
        { destruct (Rlt_dec (PI / 2) theta) as [|Hn]; [assumption |].
          destruct (Rle_dec (- (PI / 2)) theta).
          - pose proof (cos_ge_0 theta). lra.
          - pose proof (sin_lt_0_var theta). lra. }
        replace (sin theta / cos theta) with (tan (theta - PI)).
        { rewrite atan_tan by lra. ring. }
        unfold tan. rewrite sin_minus, cos_minus, sin_PI, cos_PI.
        field. lra.
      * assert (Hin : theta < - (PI / 2)).
        { destruct (Rlt_dec theta (- (PI / 2))) as [|Hn]; [assumption |].
          destruct (Rle_dec theta (PI / 2)).
          - pose proof (cos_ge_0 theta). lra.
          - pose proof (sin_ge_0 theta). lra. }
        replace (sin theta / cos theta) with (tan (theta + PI)).
        { rewrite atan_tan by lra. ring. }
        unfold tan. rewrite neg_sin, neg_cos. field. lra.
    + assert (Hzero : cos theta = 0) by lra.
      destruct (Rle_dec 0 theta) as [Hpos | Hneg].
      * destruct (cos_eq_0_2PI_0 theta) as [Heq | Heq]; try lra.
        rewrite Heq, sin_PI2.
        destruct (Rgt_dec 1 0); [reflexivity | lra].
      * destruct (cos_eq_0_2PI_0 (- theta)) as [Heq | Heq]; try lra.
        { rewrite cos_neg. assumption. }
        assert (Hth' : theta = - (PI / 2)) by lra.
        rewrite Hth', sin_neg, sin_PI2.
        destruct (Rgt_dec _ 0); [lra |].
        destruct (Rlt_dec _ 0); [reflexivity | lra].
Qed.

(** X4: a quaternion that turns by [theta] about the vertical axis, with
    [theta] in [(- PI, PI]], has roll 0, pitch 0 and yaw [theta]. *)
Theorem euler_of_vertical_turn (theta : R) :
  - PI < theta <= PI ->
  euler_from_quaternion 0 0 (sin (theta / 2)) (cos (theta / 2))
  = (0, 0, theta).
Proof.
  intros Hth. unfold euler_from_quaternion. cbv zeta.
  assert (Hroll : atan2 (2.0 * (cos (theta / 2) * 0 + 0 * sin (theta / 2)))
                    (1.0 - 2.0 * (0 * 0 + 0 * 0)) = 0).
  { unfold atan2. destruct (Rgt_dec _ 0) as [_ | Hn]; [| lra].
    replace (2.0 * (cos (theta / 2) * 0 + 0 * sin (theta / 2))
             / (1.0 - 2.0 * (0 * 0 + 0 * 0))) with 0 by (field; lra).
    apply atan_0. }
  assert (Hpitch : asin
            (if Rlt_dec
                  (if Rgt_dec (2.0 * (cos (theta / 2) * 0 - sin (theta / 2) * 0)) 1.0
                   then 1.0
                   else 2.0 * (cos (theta / 2) * 0 - sin (theta / 2) * 0))
                  (-1.0)
             then -1.0
             else
               if Rgt_dec (2.0 * (cos (theta / 2) * 0 - sin (theta / 2) * 0)) 1.0
               then 1.0
               else 2.0 * (cos (theta / 2) * 0 - sin (theta / 2) * 0)) = 0).
  { destruct (Rgt_dec _ 1.0) as [Hgt | _]; [lra |].
    destruct (Rlt_dec _ (-1.0)) as [Hlt | _]; [lra |].
    replace (2.0 * (cos (theta / 2) * 0 - sin (theta / 2) * 0)) with 0 by lra.
    apply asin_0. }
  assert (Hyaw : atan2 (2.0 * (cos (theta / 2) * sin (theta / 2) + 0 * 0))
                   (1.0 - 2.0 * (0 * 0 + sin (theta / 2) * sin (theta / 2)))
                 = theta).
  { replace (2.0 * (cos (theta / 2) * sin (theta / 2) + 0 * 0))
      with (sin (2 * (theta / 2))) by (rewrite sin_2a; lra).
    replace (1.0 - 2.0 * (0 * 0 + sin (theta / 2) * sin (theta / 2)))
      with (cos (2 * (theta / 2))) by (rewrite cos_2a_sin; lra).
    replace (2 * (theta / 2)) with theta by field.
    apply atan2_sin_cos; assumption. }
  rewrite Hroll, Hpitch, Hyaw. reflexivity.
Qed.

(** A quarter turn to the left. *)
Lemma euler_of_vertical_turn_witness :
  euler_from_quaternion 0 0 (sin (PI / 2 / 2)) (cos (PI / 2 / 2))
  = (0, 0, PI / 2).
Proof.
  apply (euler_of_vertical_turn (PI / 2)).
  pose proof PI_RGT_0. lra.
Defined.

(** ** Runs of a [PIDController] *)

Lemma last_cons_default {A : Type} (l : list A) (a d : A) :
  last (a :: l) d = last l a.
Proof.
  revert a d. induction l as [| b l IH]; intros a d.
  - reflexivity.
  - change (last (a :: b :: l) d) with (last (b :: l) d).
    rewrite (IH b d), (IH b a). reflexivity.
Qed.

Lemma state_after_cons (now error : R) (rest : list (R * R))
    (self : PIDController.t) :
  state_after ((now, error) :: rest) self
  = state_after rest (snd (PIDController.update now error self)).
Proof.
  unfold state_after.
  change (PIDController.states_after ((now, error) :: rest) self)
    with (snd (PIDController.update now error self)
          :: PIDController.states_after rest
               (snd (PIDController.update now error self))).
  apply last_cons_default.
Qed.



(** X6: a controller whose integral and last error are 0, as they are after
    construction or [reset], returns 0 at every call as long as the error
    passed is 0, whatever the gains and the clock readings are, and its
    integral and last error stay 0. *)
Theorem zero_error_zero_output (calls : list (R * R)) (self : PIDController.t) :
  PIDController.integral self = 0 ->
  PIDController.last_error self = 0 ->
  Forall (fun call => snd call = 0) calls ->
  Forall (fun output => output = 0) (outputs_of calls self) /\
  PIDController.integral (state_after calls self) = 0 /\
  PIDController.last_error (state_after calls self) = 0.
Proof.
  intros Hint Herr Hall. revert self Hint Herr.
  induction Hall as [| [now error] rest Hzero _ IH]; intros self Hint Herr.
  - split; [constructor | split; assumption].
  - simpl in Hzero. subst error. rewrite state_after_cons.
    destruct (IH (snd (PIDController.update now 0 self))) as [Houts Hstate].
    + simpl. rewrite Hint. ring.
    + reflexivity.
    + split; [| exact Hstate].
      simpl outputs_of. constructor; [| exact Houts].
      unfold PIDController.update. simpl. rewrite Hint, Herr.
      destruct (Rgt_dec (now - PIDController.last_time self) 0) as [Hdt | _].
      * unfold Rdiv. ring.
      * ring.
Qed.

(** Three calls with error 0 on a controller as constructed. *)
Lemma zero_error_zero_output_witness :
  Forall (fun output => output = 0)
    (outputs_of [(1, 0); (1, 0); (5, 0)] (PIDController.__init__ 0 0.3 0.0 0.02)) /\
  PIDController.integral
    (state_after [(1, 0); (1, 0); (5, 0)] (PIDController.__init__ 0 0.3 0.0 0.02)) = 0 /\
  PIDController.last_error
    (state_after [(1, 0); (1, 0); (5, 0)] (PIDController.__init__ 0 0.3 0.0 0.02)) = 0.
Proof.
  apply (zero_error_zero_output [(1, 0); (1, 0); (5, 0)]);
    [reflexivity | reflexivity | repeat constructor].
Defined.

(** X7: when two successive calls pass the same error, the second returns
    [kp * e + ki * integral] with no derivative term, whether its [dt] is
    positive or not. *)
Theorem repeated_error_no_derivative (self : PIDController.t) (now1 now2 e : R) :
  let self1 := snd (PIDController.update now1 e self) in
  let self2 := snd (PIDController.update now2 e self1) in
  fst (PIDController.update now2 e self1)
  = PIDController.kp self * e
    + PIDController.ki self * PIDController.integral self2 /\
  PIDController.integral self2
  = PIDController.integral self
    + e * (now1 - PIDController.last_time self) + e * (now2 - now1).
Proof.
  unfold PIDController.update. simpl.
  split; [| ring].
  destruct (Rgt_dec (now2 - now1) 0) as [Hdt | _].
  - unfold Rdiv. ring.
  - ring.
Qed.

(** ** More on the pose handler *)


(** X10: the steering published is the output of the heading controller plus
    [HEADING_BIAS] when that sum is within [[-1, 1]], and the nearer bound
    otherwise; beyond the dead band the throttle is the output of the
    distance controller when it is within [[0, 0.2]], and the nearer bound
    otherwise. *)
Theorem commands_saturate (gx gy : R) (heading distance : PIDController.t)
    (t_heading t_distance : R) (msg : PoseStamped) :
  let x := px (position (pose msg)) in
  let y := py (position (pose msg)) in
  let q := orientation (pose msg) in
  let yaw := snd (euler_from_quaternion (qx q) (qy q) (qz q) (qw q)) in
  let goal_dist := hypot (gx - x) (gy - y) in
  let heading_error := angle_wrap (atan2 (gy - y) (gx - x) - yaw) in
  let biased :=
    fst (PIDController.update t_heading heading_error heading) + HEADING_BIAS in
  let raw_throttle := fst (PIDController.update t_distance goal_dist distance) in
  exists (steering throttle : R) (self' : JetRacerController.t),
    JetRacerController.pose_callback t_heading t_distance msg
      (JetRacerController.with_goal gx gy heading distance)
    = ([Print "Postion: " [x; y];
        Publish STEERING_TOPIC steering;
        Publish THROTTLE_TOPIC throttle],
       Ok self') /\
    (biased <= -1 -> steering = -1) /\
    (-1 <= biased <= 1 -> steering = biased) /\
    (1 <= biased -> steering = 1) /\
    (goal_dist > ERR_EPSILON -> raw_throttle <= 0 -> throttle = 0) /\
    (goal_dist > ERR_EPSILON -> 0 <= raw_throttle <= 0.2 -> throttle = raw_throttle) /\
    (goal_dist > ERR_EPSILON -> 0.2 <= raw_throttle -> throttle = 0.2).
Proof.
  intros x y q yaw goal_dist heading_error biased raw_throttle.
  rewrite pose_callback_numeric.
  fold x y q yaw goal_dist heading_error raw_throttle. fold biased.
  eexists; eexists; eexists. split; [reflexivity |].
  unfold py_max, py_min.
  repeat split; intros;
    repeat match goal with
           | |- context [Rlt_dec ?a ?b] => destruct (Rlt_dec a b)
           | |- context [Rgt_dec ?a ?b] => destruct (Rgt_dec a b)
           end; lra.
Qed.

(** X12: on a freshly constructed controller, a pose that faces the goal
    exactly (heading error 0) is answered with the steering [HEADING_BIAS],
    not 0, whatever the clock readings are. *)
Theorem aligned_steering_is_bias (gx gy t_heading0 t_distance0 t_heading t_distance : R)
    (msg : PoseStamped) :
  let x := px (position (pose msg)) in
  let y := py (position (pose msg)) in
  let q := orientation (pose msg) in
  let yaw := snd (euler_from_quaternion (qx q) (qy q) (qz q) (qw q)) in
  angle_wrap (atan2 (gy - y) (gx - x) - yaw) = 0 ->
  exists (throttle : R) (self' : JetRacerController.t),
    JetRacerController.pose_callback t_heading t_distance msg
      (JetRacerController.__init__ t_heading0 t_distance0 [PyNum gx; PyNum gy])
    = ([Print "Postion: " [x; y];
        Publish STEERING_TOPIC HEADING_BIAS;
        Publish THROTTLE_TOPIC throttle],
       Ok self').
Proof.
  intros x y q yaw Haligned.
  change (JetRacerController.__init__ t_heading0 t_distance0 [PyNum gx; PyNum gy])
    with (JetRacerController.with_goal gx gy
            (PIDController.__init__ t_heading0 0.3 0.0 0.02)
            (PIDController.__init__ t_distance0 0.25 0.0 0.4)).
  rewrite pose_callback_numeric. fold x y q yaw. rewrite Haligned.
  eexists; eexists. repeat f_equal.
  unfold PIDController.update, HEADING_BIAS, py_max, py_min. simpl.
  assert (Hraw : 0.3 * 0 + 0.0 * (0 + 0 * (t_heading - t_heading0))
                 + 0.02 * (if Rgt_dec (t_heading - t_heading0) 0
                           then (0 - 0) / (t_heading - t_heading0) else 0) = 0).
  { destruct (Rgt_dec (t_heading - t_heading0) 0); [unfold Rdiv |]; ring. }
  rewrite Hraw.
  destruct (Rlt_dec 1.0 (0 + 0.04)); [lra |].
  destruct (Rgt_dec (-1.0) (0 + 0.04)); lra.
Qed.

(** Goal [(1, 0)], pose at the origin with the identity orientation. *)
Lemma aligned_steering_is_bias_witness :
  exists (throttle : R) (self' : JetRacerController.t),
    JetRacerController.pose_callback 1 1
      {| pose := {| position := {| px := 0; py := 0; pz := 0 |};
                    orientation := {| qx := 0; qy := 0; qz := 0; qw := 1 |} |} |}
      (JetRacerController.__init__ 0 0 [PyNum 1; PyNum 0])
    = ([Print "Postion: " [0; 0];
        Publish STEERING_TOPIC HEADING_BIAS;
        Publish THROTTLE_TOPIC throttle],
       Ok self').
Proof.
  apply (aligned_steering_is_bias 1 0 0 0 1 1
           {| pose := {| position := {| px := 0; py := 0; pz := 0 |};
                         orientation := {| qx := 0; qy := 0; qz := 0; qw := 1 |} |} |}).
  pose proof PI_RGT_0 as Hpi.
  assert (Hflat : forall v u : R, v = 0 -> u > 0 -> atan2 v u = 0).
  { intros v u Hv Hu. unfold atan2.
    destruct (Rgt_dec u 0); [| lra].
    subst v. unfold Rdiv. rewrite Rmult_0_l. apply atan_0. }
  simpl. unfold euler_from_quaternion. simpl snd.
  rewrite (Hflat (0 - 0) (1 - 0)) by lra.
  rewrite (Hflat (2.0 * (1 * 0 + 0 * 0)) (1.0 - 2.0 * (0 * 0 + 0 * 0))) by lra.
  replace (0 - 0) with 0 by ring.
  apply angle_wrap_fixed. lra.
Defined.

(** ** More on [main] *)

(** X13: every way the script can end.  Started with exactly one argument
    after its name, it stops on an [IndexError] with nothing printed and
    that argument left in [GOAL[0]]; started with any other number of
    arguments, also the two coordinates of the usage line, it prints the
    usage line and returns with [GOAL] untouched.  It never has a
    controller. *)
Theorem script_outcomes (t_heading t_distance : R) (sys_argv : list string) :
  controller (script t_heading t_distance sys_argv) = None /\
  (List.length sys_argv <> 2%nat ->
   script t_heading t_distance sys_argv
   = {| stdout := [USAGE]; GOAL_list := GOAL; controller := None;
        ending := Returned |}) /\
  (forall name x_arg : string,
     sys_argv = [name; x_arg] ->
     script t_heading t_distance sys_argv
     = {| stdout := []; GOAL_list := [PyStr x_arg; PyNum 0];
          controller := None; ending := Raised IndexError |}).
Proof.
  split; [apply script_never_spins |]. split.
  - intros Hlen. unfold script, main.
    destruct (Z.eqb_spec (Z.of_nat (List.length sys_argv)) 2) as [Heq | Hne].
    + exfalso. apply Hlen. lia.
    + reflexivity.
  - intros name x_arg Hargv. subst sys_argv. reflexivity.
Qed.

(** X14: [main] stores the coordinates as the strings it is given.  Called
    with [argc = 2] and a list that does hold two coordinates, it builds
    the controller and spins, and that controller answers every pose with a
    [TypeError] after its print, publishing nothing. *)
Theorem main_goal_stays_strings (t_heading t_distance : R)
    (name x_arg y_arg : string) (rest : list string) :
  let p := main t_heading t_distance 2 (name :: x_arg :: y_arg :: rest) in
  ending p = Spinning /\
  GOAL_list p = [PyStr x_arg; PyStr y_arg] /\
  exists c : JetRacerController.t,
    controller p = Some c /\
    JetRacerController.goal c = [PyStr x_arg; PyStr y_arg] /\
    forall (t1 t2 : R) (msg : PoseStamped),
      JetRacerController.pose_callback t1 t2 msg c
      = ([Print "Postion: " [px (position (pose msg)); py (position (pose msg))]],
         Raise TypeError).
Proof.
  cbv zeta. split; [reflexivity |]. split; [reflexivity |].
  eexists. split; [reflexivity |]. split; [reflexivity |].
  intros t1 t2 msg. apply pose_callback_string_goal.
Qed.


(** ** The script on binary64 floats *)

Section Binary64Facts.

Import PrimFloat.
Local Open Scope float_scope.
#[local] Set Warnings "-inexact-float".

Lemma while_above_absorbed (fuel : nat) :
  Binary64.while_above fuel 1e17 = None.
Proof.
  induction fuel as [| fuel IH]; [reflexivity |].
  cbn [Binary64.while_above].
  replace (Binary64.math_pi <? 1e17) with true by (vm_compute; reflexivity).
  replace (1e17 - 2 * Binary64.math_pi) with 1e17 by (vm_compute; reflexivity).
  exact IH.
Qed.

(** C8, the code at the failing input: on binary64 floats [1e17 - 2 *
    math.pi] is [1e17] again, so the first loop of [angle_wrap(1e17)] tests
    [angle > math.pi] on the same angle for ever: no number of iterations
    makes the call return. *)
Theorem angle_wrap_1e17_never_returns :
  (1e17 - 2 * Binary64.math_pi =? 1e17) = true /\
  forall fuel : nat, Binary64.angle_wrap fuel 1e17 = None.
Proof.
  split; [vm_compute; reflexivity |].
  intros fuel. unfold Binary64.angle_wrap.
  rewrite while_above_absorbed. reflexivity.
Qed.

(** C5, the code at the failing input: a controller built at clock reading
    0 with the goal [(0, 0)] receives its first pose at reading 2, at
    position [(1e308, 0)] with the identity orientation, so that the
    distance to the goal is [1e308] and the heading error [math.pi].  The
    integral [1e308 * 2] of the distance controller overflows to infinity,
    [0.0 * inf] is NaN, [min] and [max] let NaN through, and the throttle
    published is NaN, which is not in [[0, 0.2]]. *)
Theorem throttle_nan_on_overflow :
  let throttle :=
    snd (Binary64.commands 2 2 Binary64.math_pi 1e308
           (Binary64.__init__ 0 0.3 0.0 0.02)
           (Binary64.__init__ 0 0.25 0.0 0.4)) in
  is_nan throttle = true /\
  (0 <=? throttle) = false /\
  (throttle <=? 0.2) = false.
Proof. vm_compute. repeat split; reflexivity. Qed.

(** A NaN heading error, as a NaN in the pose yields, is published as a NaN
    steering. *)
Lemma steering_nan_on_nan_pose :
  is_nan (fst (Binary64.commands 2 2 nan 1
                 (Binary64.__init__ 0 0.3 0.0 0.02)
                 (Binary64.__init__ 0 0.25 0.0 0.4))) = true.
Proof. vm_compute. reflexivity. Qed.

(** X17: on binary64 floats, whatever the errors, the clock readings and
    the states of the two controllers are, the steering computed is never
    greater than 1 nor less than -1 and the throttle never greater than 0.2
    nor less than 0; a command is NaN only when the output of its
    controller (with the bias, for the steering) is NaN. *)
Theorem commands_limited_unless_nan (t_heading t_distance : float)
    (heading_error goal_dist : float) (heading_pid distance_pid : Binary64.t) :
  let raw_steering :=
    fst (Binary64.update t_heading heading_error heading_pid) in
  let raw_throttle :=
    fst (Binary64.update t_distance goal_dist distance_pid) in
  let steering :=
    fst (Binary64.commands t_heading t_distance heading_error goal_dist
           heading_pid distance_pid) in
  let throttle :=
    snd (Binary64.commands t_heading t_distance heading_error goal_dist
           heading_pid distance_pid) in
  (1 <? steering) = false /\ (steering <? -1) = false /\
  (0.2 <? throttle) = false /\ (throttle <? 0) = false /\
  (is_nan steering = true ->
   is_nan (raw_steering + Binary64.HEADING_BIAS) = true) /\
  (is_nan throttle = true -> is_nan raw_throttle = true).
Proof.
  intros raw_steering raw_throttle steering throttle.
  subst steering throttle. unfold Binary64.commands.
  cbn [fst snd]. fold raw_steering raw_throttle.
  unfold Binary64.py_max, Binary64.py_min.
  set (v := raw_steering + Binary64.HEADING_BIAS).
  destruct (1.0 <? v) eqn:Hhi;
    [replace (1.0 <? -1.0) with false by (vm_compute; reflexivity) |];
    [| destruct (v <? -1.0) eqn:Hlo];
    (destruct (Binary64.ERR_EPSILON <? goal_dist);
     [destruct (0.2 <? raw_throttle) eqn:Hthi;
      [replace (0.2 <? 0.0) with false by (vm_compute; reflexivity) |];
      [| destruct (raw_throttle <? 0.0) eqn:Htlo] |]);
    repeat split;
    try assumption;
    try (vm_compute; reflexivity);
    try (intros Hnan; vm_compute in Hnan; discriminate Hnan);
    try (intros Hnan; exact Hnan).
Qed.

End Binary64Facts.
